(** * CPP-Traits: Start.cpp

    A shallow embedding of [Start.cpp]: the member function templates of
    [SimpleClass], the overload sets that [std::enable_if_t] gates on
    [std::is_class_v<T>], and [main].

    A C++ type parameter [T] is a Rocq type together with two instances:
    [Typed T] carries what the compiler knows statically about [T] (its
    type category) and [Formatted T] is the [operator<<] that the bodies
    need for [cout << value].  Overload resolution happens when the program
    is built, so an overloaded name denotes a [build] of the selected body;
    the body itself is a function on the output stream.

    Conventions.  An inserter of a value type appends the characters the
    value is rendered as and touches nothing else of the stream, as the
    standard inserters do at the default field width; the rendering may
    depend on the [boolalpha] flag, the only format flag the program sets.
    A [char] array is printed through its decay to [const char *], up to
    the first NUL.  [std::endl] appends a newline (the flush has no effect
    on what has been written). *)

From Stdlib Require Import String Ascii List ZArith.
Import ListNotations.
Open Scope string_scope.

(** ** The parts of the standard library the program uses *)

Module Std.

(** Static description of a C++ type, by primary type category. *)
Inductive CppType : Type :=
| TVoid
| TNullptr
| TBool
| TChar
| TInt
| TDouble
| TArray (elem : CppType) (extent : nat)
| TPointer (pointee : CppType)
| TEnum (name : string)
| TUnion (name : string)
| TClass (name : string).

(** [typename T]: what is known about [T] when the program is built. *)
Class Typed (T : Type) : Type := static_type : CppType.
Arguments static_type T {_}.

(** [std::integral_constant]: a type-level constant with a [::value]. *)
Record integral_constant (A : Type) : Type := { value : A }.
Arguments value {A} _.

(** [std::is_class<T>]: true for class and struct types only (a union is
    not a class for this trait). *)
Definition is_class (T : CppType) : integral_constant bool :=
  {| value := match T with TClass _ => true | _ => false end |}.

(** [std::is_class_v<T>] is [std::is_class<T>::value]. *)
Definition is_class_v (T : CppType) : bool := value (is_class T).

(** [std::enable_if_t<B, U>]: names [U] when [B] holds; otherwise there is
    no member [type] and the substitution fails. *)
Definition enable_if_t (B : bool) (U : CppType) : option CppType :=
  if B then Some U else None.

(** [std::nullptr_t] and its only value. *)
Inductive nullptr_t : Type := nullptr.

(** [std::ostream], as far as the program can observe it: the
    [boolalpha] format flag and the characters written so far. *)
Record ostream : Type := { boolalpha_flag : bool; written : string }.

(** A stream that has written nothing, with the default flags. *)
Definition fresh : ostream := {| boolalpha_flag := false; written := "" |}.

Definition newline : string := String "010"%char EmptyString.

(** Unformatted append of characters to the stream. *)
Definition write (s : string) (os : ostream) : ostream :=
  {| boolalpha_flag := boolalpha_flag os; written := written os ++ s |}.

(** The manipulators [std::endl] and [std::boolalpha]. *)
Definition endl (os : ostream) : ostream := write newline os.

Definition boolalpha (os : ostream) : ostream :=
  {| boolalpha_flag := true; written := written os |}.

(** [operator<<] for a value type: the characters the value is rendered
    as, under the stream's [boolalpha] flag. *)
Class Formatted (T : Type) : Type := format : bool -> T -> string.

(** [operator<<] in general: values and manipulators. *)
Class Inserter (A : Type) : Type := insert : ostream -> A -> ostream.

#[export] Instance insert_formatted {T} `{Formatted T} : Inserter T :=
  fun os v => write (format (boolalpha_flag os) v) os.

#[export] Instance insert_manipulator : Inserter (ostream -> ostream) :=
  fun os pf => pf os.

(** [std::string] *)
Record std_string : Type := mk_string { data : string }.

#[export] Instance std_string_typed : Typed std_string :=
  TClass "std::basic_string<char>".
#[export] Instance std_string_formatted : Formatted std_string :=
  fun _ s => data s.

(** [char[N]]: the array's elements, terminator included. *)
Record char_array (N : nat) : Type := mk_array { elems : string }.
Arguments mk_array {N} _.
Arguments elems {N} _.

Definition NUL : ascii := "000"%char.

(** The characters of a C string: everything before the first NUL. *)
Fixpoint c_str (s : string) : string :=
  match s with
  | EmptyString => EmptyString
  | String c rest => if Ascii.eqb c NUL then EmptyString else String c (c_str rest)
  end.

(** A string literal: its characters followed by the terminator. *)
Definition lit (s : string) : char_array (S (String.length s)) :=
  mk_array (s ++ String NUL EmptyString).

#[export] Instance char_array_typed {N} : Typed (char_array N) :=
  TArray TChar N.
#[export] Instance char_array_formatted {N} : Formatted (char_array N) :=
  fun _ a => c_str (elems a).

(** [bool] *)
#[export] Instance bool_typed : Typed bool := TBool.
#[export] Instance bool_formatted : Formatted bool :=
  fun alpha b =>
    if alpha then (if b then "true" else "false")
    else (if b then "1" else "0").

End Std.

Import Std.

Notation "os << x" := (insert os x) (at level 40, left associativity).

(** ** Building: overload resolution over gated templates *)

(** The outcome of resolving a call when the program is built. *)
Inductive build (A : Type) : Type :=
| Built (a : A)
| NoMatchingFunction
| AmbiguousCall.
Arguments Built {A} a.
Arguments NoMatchingFunction {A}.
Arguments AmbiguousCall {A}.

Definition bind {A B} (m : build A) (k : A -> build B) : build B :=
  match m with
  | Built a => k a
  | NoMatchingFunction => NoMatchingFunction
  | AmbiguousCall => AmbiguousCall
  end.

Notation "x <- m ;; k" := (bind m (fun x => k))
  (at level 61, m at next level, right associativity).

(** A function template after [T] has been deduced from the argument.
    [gate] is the type obtained in the gated position (a non-type template
    parameter, the return type, or a trailing parameter); [None] is a
    substitution failure, which removes the candidate (SFINAE). *)
Record candidate (F : Type) : Type := { gate : option CppType; body : F }.
Arguments gate {F} _.
Arguments body {F} _.

Definition viable {F} (c : candidate F) : bool :=
  match gate c with Some _ => true | None => false end.

(** The templates of one name all take [const T &]; none is more
    specialised than another, so exactly one must survive substitution. *)
Definition resolve {F} (overloads : list (candidate F)) : build F :=
  match filter viable overloads with
  | [] => NoMatchingFunction
  | [c] => Built (body c)
  | _ :: _ :: _ => AmbiguousCall
  end.

(** ** class SimpleClass *)

(** The class has no data members. *)
Record SimpleClass : Type := mkSimpleClass { }.

(** A [const] member function taking [const T &] and writing to [cout]. *)
Definition method (T : Type) : Type := SimpleClass -> T -> ostream -> ostream.

Section Members.
Context {T : Type} `{Typed T} `{Formatted T}.

Definition amIAClass : method T := fun this value cout =>
  cout << lit "Is " << value << lit " << a class: "
       << Std.value (is_class (static_type T)) << endl.

Definition amIAClass2 : method T := fun this value cout =>
  cout << lit "Is " << value << lit " << a class: "
       << is_class_v (static_type T) << endl.

(** [template <typename T, std::nullptr_t = nullptr>] *)
Definition nullExample_0 : candidate (method T) :=
  {| gate := Some TNullptr;
     body := fun this value cout => cout << lit "Null Works, " << value << endl |}.

Definition nullExample : build (method T) := resolve [nullExample_0].

(** [template <typename T, typename = std::nullptr_t>] *)
Definition nullExample2_0 : candidate (method T) :=
  {| gate := Some TNullptr;
     body := fun this value cout => cout << lit "Null Works, " << value << endl |}.

Definition nullExample2 : build (method T) := resolve [nullExample2_0].

(** The two [hello] templates. *)
Definition hello_1 : candidate (method T) :=
  {| gate := enable_if_t (is_class_v (static_type T)) TNullptr;
     body := fun this name cout => cout << lit "Hello, " << name << endl |}.

Definition hello_2 : candidate (method T) :=
  {| gate := enable_if_t (negb (is_class_v (static_type T))) TNullptr;
     body := fun this name cout => cout << lit "Goodbye, " << name << endl |}.

Definition hello : build (method T) := resolve [hello_1; hello_2].

(** The alias templates. *)
Definition IsClass : option CppType :=
  enable_if_t (is_class_v (static_type T)) TNullptr.

Definition IsNotClass : option CppType :=
  enable_if_t (negb (is_class_v (static_type T))) TNullptr.

Definition cleaner_1 : candidate (method T) :=
  {| gate := IsClass;
     body := fun this name cout => cout << lit "Is Class, " << name << endl |}.

Definition cleaner_2 : candidate (method T) :=
  {| gate := IsNotClass;
     body := fun this name cout => cout << lit "Not Class, " << name << endl |}.

Definition cleaner : build (method T) := resolve [cleaner_1; cleaner_2].

Definition IsClassV : option CppType :=
  enable_if_t (is_class_v (static_type T)) TVoid.

Definition IsNotClassV : option CppType :=
  enable_if_t (negb (is_class_v (static_type T))) TVoid.

(** Gated through the return type. *)
Definition another_1 : candidate (method T) :=
  {| gate := IsClassV;
     body := fun this name cout => cout << lit "Is Class, " << name << endl |}.

Definition another_2 : candidate (method T) :=
  {| gate := IsNotClassV;
     body := fun this name cout => cout << lit "Is not Class, " << name << endl |}.

Definition another : build (method T) := resolve [another_1; another_2].

(** Gated through an unnamed second parameter with a default value. *)
Definition method2 : Type := SimpleClass -> T -> nullptr_t -> ostream -> ostream.

Definition asArgument_1 : candidate method2 :=
  {| gate := IsClass;
     body := fun this name _ cout => cout << lit "AsArg: Is Class, " << name << endl |}.

Definition asArgument_2 : candidate method2 :=
  {| gate := IsNotClass;
     body := fun this name _ cout =>
               cout << lit "AsArg: Is Not Class, " << name << endl |}.

(** A call site writes the second argument or leaves it to the default
    [= nullptr]. *)
Definition default_nullptr (arg : option nullptr_t) : nullptr_t :=
  match arg with Some p => p | None => nullptr end.

Definition asArgument (arg : option nullptr_t) : build (method T) :=
  f <- resolve [asArgument_1; asArgument_2] ;;
  Built (fun this name cout => f this name (default_nullptr arg) cout).

End Members.

(** ** main *)

Definition main (argc : Z) (argv : list string) : build (ostream -> ostream * Z) :=
  nullExample_a <- nullExample (T := char_array 10) ;;
  nullExample2_a <- nullExample2 (T := char_array 6) ;;
  hello_s <- hello (T := std_string) ;;
  hello_a <- hello (T := char_array 6) ;;
  cleaner_s <- cleaner (T := std_string) ;;
  cleaner_a <- cleaner (T := char_array 6) ;;
  another_s <- another (T := std_string) ;;
  another_a <- another (T := char_array 6) ;;
  asArgument_s <- asArgument (T := std_string) (Some nullptr) ;;
  asArgument_a <- asArgument (T := char_array 6) None ;;
  Built (fun cout =>
    let cout := cout << boolalpha in
    let sc := mkSimpleClass in
    let cout := amIAClass sc (mk_string "A String") cout in
    let cout := amIAClass sc (lit "Constant") cout in
    let cout := amIAClass2 sc (lit "Constant") cout in
    let cout := nullExample_a sc (lit "Some Null") cout in
    let cout := nullExample2_a sc (lit "Again") cout in
    let cout := hello_s sc (mk_string "Joe") cout in
    let cout := hello_a sc (lit "Again") cout in
    let cout := cleaner_s sc (mk_string "Joe") cout in
    let cout := cleaner_a sc (lit "Again") cout in
    let cout := another_s sc (mk_string "Joe") cout in
    let cout := another_a sc (lit "Again") cout in
    let cout := asArgument_s sc (mk_string "Joe") cout in
    let cout := asArgument_a sc (lit "Again") cout in
    (cout, 0%Z)).

(** The text [main] prints, line by line. *)
Definition transcript : list string :=
  [ "Is A String << a class: true";
    "Is Constant << a class: false";
    "Is Constant << a class: false";
    "Null Works, Some Null";
    "Null Works, Again";
    "Hello, Joe";
    "Goodbye, Again";
    "Is Class, Joe";
    "Not Class, Again";
    "Is Class, Joe";
    "Is not Class, Again";
    "AsArg: Is Class, Joe";
    "AsArg: Is Not Class, Again" ].

Definition unlines (ls : list string) : string :=
  fold_right (fun l acc => l ++ newline ++ acc) "" ls.

(** ** The public member functions, as one family *)

Inductive member : Type :=
| AmIAClass
| AmIAClass2
| NullExample
| NullExample2
| Hello
| Cleaner
| Another
| AsArgument (arg : option nullptr_t).

(** [sc.m(v)] as the build resolves it. *)
Definition call (m : member) {T : Type} `{Typed T} `{Formatted T} : build (method T) :=
  match m with
  | AmIAClass => Built amIAClass
  | AmIAClass2 => Built amIAClass2
  | NullExample => nullExample
  | NullExample2 => nullExample2
  | Hello => hello
  | Cleaner => cleaner
  | Another => another
  | AsArgument arg => asArgument arg
  end.

(** The two labels of a gated overload set, as the bodies spell them:
    first the one of the template enabled for class types. *)
Definition labels_of (m : member) : option (string * string) :=
  match m with
  | Hello => Some ("Hello, ", "Goodbye, ")
  | Cleaner => Some ("Is Class, ", "Not Class, ")
  | Another => Some ("Is Class, ", "Is not Class, ")
  | AsArgument _ => Some ("AsArg: Is Class, ", "AsArg: Is Not Class, ")
  | AmIAClass | AmIAClass2 | NullExample | NullExample2 => None
  end.

(** ** Vocabulary of the properties *)

Section Vocabulary.
Context {T : Type} `{Typed T} `{Formatted T}.

(** The line [<label><value>] closed by the newline of [endl], the value
    rendered under the stream's current flags. *)
Definition line (label : string) (v : T) (os : ostream) : string :=
  label ++ format (boolalpha_flag os) v ++ newline.

(** The stream after exactly that line has been written to it. *)
Definition says (label : string) (v : T) (os : ostream) : ostream :=
  write (line label v os) os.

(** The line of [amIAClass] and [amIAClass2]. *)
Definition verdict (v : T) (os : ostream) : string :=
  "Is " ++ format (boolalpha_flag os) v ++ " << a class: "
    ++ format (boolalpha_flag os) (is_class_v (static_type T)) ++ newline.

(** A gated dispatcher writes one line: the [op_true] line exactly for
    class types, the [op_false] line exactly for the others. *)
Definition exactly_one_line (f : build (method T)) (op_true op_false : string) : Prop :=
  exists run, f = Built run /\
    forall (this : SimpleClass) (v : T) (os : ostream),
      (run this v os = says op_true v os <-> is_class_v (static_type T) = true) /\
      (run this v os = says op_false v os <-> is_class_v (static_type T) = false) /\
      (run this v os = says op_true v os \/ run this v os = says op_false v os) /\
      ~ (run this v os = says op_true v os /\ run this v os = says op_false v os).

(** The label a dispatcher writes is fixed by [T]: one label serves every
    value, every object and every stream. *)
Definition same_branch (f : build (method T)) (op_true op_false : string) : Prop :=
  exists run label, f = Built run /\
    (label = op_true \/ label = op_false) /\
    forall (this : SimpleClass) (v1 v2 : T) (os1 os2 : ostream),
      run this v1 os1 = says label v1 os1 /\ run this v2 os2 = says label v2 os2.

End Vocabulary.

(** The number of line terminators in a text. *)
Fixpoint newlines (s : string) : nat :=
  match s with
  | EmptyString => 0
  | String c rest => (if Ascii.eqb c "010"%char then 1 else 0) + newlines rest
  end.

(** ** Strings and streams *)

Lemma append_assoc (a b c : string) : (a ++ b) ++ c = a ++ (b ++ c).
Proof.
  induction a as [|x a IH]; simpl.
  - reflexivity.
  - now rewrite IH.
Qed.

Lemma append_inv_head (a b c : string) : a ++ b = a ++ c -> b = c.
Proof.
  induction a as [|x a IH]; simpl; intros E.
  - exact E.
  - injection E as E. auto.
Qed.

Lemma write_write (a b : string) (os : ostream) :
  write b (write a os) = write (a ++ b) os.
Proof. unfold write; simpl. now rewrite append_assoc. Qed.

Lemma write_inj (a b : string) (os : ostream) : write a os = write b os -> a = b.
Proof.
  unfold write; intros E. injection E as E.
  now apply append_inv_head in E.
Qed.

Lemma write_flag (a : string) (os : ostream) :
  boolalpha_flag (write a os) = boolalpha_flag os.
Proof. reflexivity. Qed.

(** A literal without an embedded NUL prints as its characters. *)
Lemma c_str_lit (s : string) : c_str s = s -> c_str (elems (lit s)) = s.
Proof.
  unfold lit; simpl.
  induction s as [|c s IH]; simpl.
  - reflexivity.
  - destruct (Ascii.eqb c NUL).
    + discriminate.
    + intros E. injection E as E. now rewrite IH.
Qed.

(** Two labels that no common tail can make equal. *)
Definition apart (a b : string) : Prop := forall tail, a ++ tail <> b ++ tail.

Ltac labels_apart := intros tail E; simpl in E; congruence.

Lemma hello_apart : apart "Hello, " "Goodbye, ".
Proof. labels_apart. Qed.

Lemma cleaner_apart : apart "Is Class, " "Not Class, ".
Proof. labels_apart. Qed.

Lemma another_apart : apart "Is Class, " "Is not Class, ".
Proof. labels_apart. Qed.

Lemma asArgument_apart : apart "AsArg: Is Class, " "AsArg: Is Not Class, ".
Proof. labels_apart. Qed.

Section Lines.
Context {T : Type} `{Typed T} `{Formatted T}.

Lemma says_apart (a b : string) (v : T) (os : ostream) :
  apart a b -> says a v os <> says b v os.
Proof.
  intros Hab E. apply write_inj in E. exact (Hab _ E).
Qed.

(** [cout << "label" << v << endl] writes one line. *)
Lemma put_line (label : string) (v : T) (os : ostream) :
  c_str label = label ->
  os << lit label << v << endl = says label v os.
Proof.
  intros E. unfold says, line, insert, insert_manipulator, insert_formatted, endl.
  rewrite !write_write, write_flag.
  unfold format at 1, char_array_formatted.
  now rewrite (c_str_lit label E).
Qed.

Lemma amIAClass_line this (v : T) (os : ostream) :
  amIAClass this v os = write (verdict v os) os.
Proof.
  unfold amIAClass, verdict, insert, insert_manipulator, insert_formatted, endl.
  rewrite !write_write, !write_flag.
  reflexivity.
Qed.

Lemma amIAClass2_line this (v : T) (os : ostream) :
  amIAClass2 this v os = write (verdict v os) os.
Proof.
  unfold amIAClass2, verdict, insert, insert_manipulator, insert_formatted, endl.
  rewrite !write_write, !write_flag.
  reflexivity.
Qed.

(** *** Which template each overload set selects *)

Lemma resolve_complementary {F : Type} (b : bool) (U V : CppType) (f g : F) :
  resolve [ {| gate := enable_if_t b U; body := f |};
            {| gate := enable_if_t (negb b) V; body := g |} ]
  = Built (if b then f else g).
Proof. destruct b; reflexivity. Qed.

Lemma hello_selects :
  hello (T := T) = Built (body (if is_class_v (static_type T) then hello_1 else hello_2)).
Proof.
  unfold hello, hello_1, hello_2. rewrite resolve_complementary.
  now destruct (is_class_v _).
Qed.

Lemma cleaner_selects :
  cleaner (T := T) = Built (body (if is_class_v (static_type T) then cleaner_1 else cleaner_2)).
Proof.
  unfold cleaner, cleaner_1, cleaner_2, IsClass, IsNotClass.
  rewrite resolve_complementary. now destruct (is_class_v _).
Qed.

Lemma another_selects :
  another (T := T) = Built (body (if is_class_v (static_type T) then another_1 else another_2)).
Proof.
  unfold another, another_1, another_2, IsClassV, IsNotClassV.
  rewrite resolve_complementary. now destruct (is_class_v _).
Qed.

Lemma asArgument_selects (arg : option nullptr_t) :
  asArgument (T := T) arg
  = Built (fun this name cout =>
      body (if is_class_v (static_type T) then asArgument_1 else asArgument_2)
           this name (default_nullptr arg) cout).
Proof.
  unfold asArgument, asArgument_1, asArgument_2, IsClass, IsNotClass.
  rewrite resolve_complementary. now destruct (is_class_v _).
Qed.

(** *** What the selected body writes *)

Lemma gated_call (m : member) (op_true op_false : string) :
  labels_of m = Some (op_true, op_false) ->
  exists run, call m (T := T) = Built run /\
    forall this v os,
      run this v os
      = says (if is_class_v (static_type T) then op_true else op_false) v os.
Proof.
  destruct m; simpl; try discriminate; intros E; injection E as <- <-.
  - rewrite hello_selects. eexists; split; [reflexivity|]. intros.
    destruct (is_class_v _); simpl; now apply put_line.
  - rewrite cleaner_selects. eexists; split; [reflexivity|]. intros.
    destruct (is_class_v _); simpl; now apply put_line.
  - rewrite another_selects. eexists; split; [reflexivity|]. intros.
    destruct (is_class_v _); simpl; now apply put_line.
  - rewrite asArgument_selects. eexists; split; [reflexivity|]. intros.
    destruct (is_class_v _); simpl; now apply put_line.
Qed.

Lemma gated_exactly_one (m : member) (op_true op_false : string) :
  labels_of m = Some (op_true, op_false) ->
  apart op_true op_false ->
  exactly_one_line (call m) op_true op_false.
Proof.
  intros L Hab. destruct (gated_call m _ _ L) as [run [E R]].
  exists run; split; [exact E|]. intros this v os. rewrite R.
  pose proof (says_apart _ _ v os Hab) as Hne.
  destruct (is_class_v _).
  - split; [tauto|]. split; [|split].
    + split; [intros E'; now elim Hne | discriminate].
    + now left.
    + intros [_ E']. now elim Hne.
  - split; [|split; [tauto|split]].
    + split; [intros E'; now elim Hne | discriminate].
    + now right.
    + intros [E' _]. now elim Hne.
Qed.

Lemma gated_same_branch (m : member) (op_true op_false : string) :
  labels_of m = Some (op_true, op_false) ->
  same_branch (call m) op_true op_false.
Proof.
  intros L. destruct (gated_call m _ _ L) as [run [E R]].
  exists run, (if is_class_v (static_type T) then op_true else op_false).
  split; [exact E|]. split.
  - destruct (is_class_v _); auto.
  - intros. now rewrite !R.
Qed.

(** Every member function appends text that depends on the value and on
    the stream's flags only. *)
Lemma call_appends (m : member) :
  exists run (text : bool -> T -> string), call m (T := T) = Built run /\
    forall this v os, run this v os = write (text (boolalpha_flag os) v) os.
Proof.
  destruct (labels_of m) as [[a b]|] eqn:L.
  - destruct (gated_call m a b L) as [run [E R]].
    exists run,
      (fun alpha v => (if is_class_v (static_type T) then a else b)
                        ++ format alpha v ++ newline).
    split; [exact E|]. intros. now rewrite R.
  - destruct m; try discriminate; simpl.
    + exists amIAClass,
        (fun alpha v => "Is " ++ format alpha v ++ " << a class: "
                          ++ format alpha (is_class_v (static_type T)) ++ newline).
      split; [reflexivity|]. intros. apply amIAClass_line.
    + exists amIAClass2,
        (fun alpha v => "Is " ++ format alpha v ++ " << a class: "
                          ++ format alpha (is_class_v (static_type T)) ++ newline).
      split; [reflexivity|]. intros. apply amIAClass2_line.
    + exists (body nullExample_0),
        (fun alpha v => "Null Works, " ++ format alpha v ++ newline).
      split; [reflexivity|]. intros. simpl. now apply put_line.
    + exists (body nullExample2_0),
        (fun alpha v => "Null Works, " ++ format alpha v ++ newline).
      split; [reflexivity|]. intros. simpl. now apply put_line.
Qed.

End Lines.

(** *** The whole run *)

Lemma main_runs (argc : Z) (argv : list string) :
  exists run, main argc argv = Built run /\
    forall cout, run cout = (write (unlines transcript) (cout << boolalpha), 0%Z).
Proof.
  eexists; split; [reflexivity|].
  intros cout. cbv beta zeta. f_equal.
  rewrite amIAClass2_line, !amIAClass_line.
  cbn [body nullExample_0 nullExample2_0 hello_1 hello_2 cleaner_1 cleaner_2
       another_1 another_2 asArgument_1 asArgument_2].
  rewrite !put_line by reflexivity.
  unfold says. rewrite !write_write. reflexivity.
Qed.

(** [asArgument] resolves to the same function whether the call writes
    the second argument or leaves it to the default. *)
Lemma asArgument_default {T : Type} `{Typed T} `{Formatted T} (arg : option nullptr_t) :
  asArgument (T := T) arg = asArgument (T := T) None.
Proof.
  rewrite !asArgument_selects. now destruct (is_class_v _).
Qed.

(** On a stream left with its default flags the verdict is a digit. *)
Remark amIAClass_default_flags (this : SimpleClass) :
  written (amIAClass this (mk_string "A String") fresh)
  = "Is A String << a class: 1" ++ newline.
Proof. reflexivity. Qed.

(** ** The properties of the specification *)

(** C1.  Called with a value of any type [T], each of the gated
    dispatchers [hello], [cleaner], [another] and [asArgument] is resolved
    by the build and writes exactly one line: the line of the template
    enabled for class types if and only if [T] is a class type, the line
    of the other template if and only if it is not; one of the two and
    never both. *)
Theorem gated_dispatch_exactly_one_line :
  forall (T : Type) `{Typed T} `{Formatted T},
    exactly_one_line (hello (T := T)) "Hello, " "Goodbye, " /\
    exactly_one_line (cleaner (T := T)) "Is Class, " "Not Class, " /\
    exactly_one_line (another (T := T)) "Is Class, " "Is not Class, " /\
    forall arg,
      exactly_one_line (asArgument (T := T) arg)
        "AsArg: Is Class, " "AsArg: Is Not Class, ".
Proof.
  intros T HT HF. repeat split.
  - exact (gated_exactly_one Hello _ _ eq_refl hello_apart).
  - exact (gated_exactly_one Cleaner _ _ eq_refl cleaner_apart).
  - exact (gated_exactly_one Another _ _ eq_refl another_apart).
  - intros arg.
    exact (gated_exactly_one (AsArgument arg) _ _ eq_refl asArgument_apart).
Qed.

(** C2, as the specification states it, fails: for the [std::string]
    "Joe" the [hello] form writes "Hello, Joe" and the [cleaner] form
    writes "Is Class, Joe". *)
Lemma forms_not_byte_identical :
  exists h c,
    hello (T := std_string) = Built h /\
    cleaner (T := std_string) = Built c /\
    written (h mkSimpleClass (mk_string "Joe") fresh) = "Hello, Joe" ++ newline /\
    written (c mkSimpleClass (mk_string "Joe") fresh) = "Is Class, Joe" ++ newline /\
    h mkSimpleClass (mk_string "Joe") fresh <> c mkSimpleClass (mk_string "Joe") fresh.
Proof.
  eexists; eexists. repeat split; try reflexivity.
  cbv. intros E. discriminate E.
Qed.

(** C2, amended.  For every type and value the four forms take the same
    branch, and each writes one line made of its own label for that branch
    followed by the same text: the value and a newline.  The labels are
    the only difference between the forms (and [cleaner] and [another]
    share theirs for class types). *)
Theorem forms_agree_up_to_label :
  forall (T : Type) `{Typed T} `{Formatted T}
         (this : SimpleClass) (v : T) (os : ostream),
  exists h c a g,
    hello = Built h /\ cleaner = Built c /\ another = Built a /\
    (forall arg, asArgument arg = Built g) /\
    let tail := format (boolalpha_flag os) v ++ newline in
    if is_class_v (static_type T) then
      h this v os = write ("Hello, " ++ tail) os /\
      c this v os = write ("Is Class, " ++ tail) os /\
      a this v os = write ("Is Class, " ++ tail) os /\
      g this v os = write ("AsArg: Is Class, " ++ tail) os
    else
      h this v os = write ("Goodbye, " ++ tail) os /\
      c this v os = write ("Not Class, " ++ tail) os /\
      a this v os = write ("Is not Class, " ++ tail) os /\
      g this v os = write ("AsArg: Is Not Class, " ++ tail) os.
Proof.
  intros T HT HF this v os.
  destruct (gated_call (T := T) Hello _ _ eq_refl) as [h [Eh Rh]].
  destruct (gated_call (T := T) Cleaner _ _ eq_refl) as [c [Ec Rc]].
  destruct (gated_call (T := T) Another _ _ eq_refl) as [a [Ea Ra]].
  destruct (gated_call (T := T) (AsArgument None) _ _ eq_refl) as [g [Eg Rg]].
  exists h, c, a, g. repeat (split; [assumption|]).
  split.
  - intros arg. rewrite asArgument_default. exact Eg.
  - cbv zeta. rewrite Rh, Rc, Ra, Rg.
    destruct (is_class_v _); repeat split.
Qed.

(** C3.  [sc.hello(string{"Joe"})] writes the line "Hello, Joe" and
    [sc.hello("Again")] writes the line "Goodbye, Again". *)
Theorem hello_Joe_goodbye_Again :
  exists h_string h_array,
    hello (T := std_string) = Built h_string /\
    hello (T := char_array 6) = Built h_array /\
    forall (this : SimpleClass) (os : ostream),
      h_string this (mk_string "Joe") os = write ("Hello, Joe" ++ newline) os /\
      h_array this (lit "Again") os = write ("Goodbye, Again" ++ newline) os.
Proof.
  eexists; eexists. split; [reflexivity|]. split; [reflexivity|].
  intros this os. cbn [body hello_1 hello_2].
  rewrite !put_line by reflexivity. split; reflexivity.
Qed.

(** C4.  On the stream as [main] sets it up ([cout << std::boolalpha]),
    [amIAClass] writes "Is A String << a class: true" for the
    [std::string] "A String" and "Is Constant << a class: false" for the
    literal "Constant": the verdict is spelled as a word.  These are the
    first two lines [main] prints. *)
Theorem amIAClass_spells_verdict :
  (forall (this : SimpleClass) (os : ostream),
      amIAClass this (mk_string "A String") (os << boolalpha)
      = write ("Is A String << a class: true" ++ newline) (os << boolalpha) /\
      amIAClass this (lit "Constant") (os << boolalpha)
      = write ("Is Constant << a class: false" ++ newline) (os << boolalpha)) /\
  (forall (argc : Z) (argv : list string),
      exists run, main argc argv = Built run /\
        forall cout, exists rest,
          written (fst (run cout))
          = written cout ++ ("Is A String << a class: true" ++ newline)
              ++ ("Is Constant << a class: false" ++ newline) ++ rest).
Proof.
  split.
  - intros this os. rewrite !amIAClass_line. split; reflexivity.
  - intros argc argv. destruct (main_runs argc argv) as [run [E R]].
    exists run; split; [exact E|]. intros cout. rewrite R.
    exists (unlines (skipn 2 transcript)). reflexivity.
Qed.

(** C6.  Which of the two templates a gated dispatcher runs is fixed by
    the type alone: for each [T] there is one label that the dispatcher
    writes for every pair of values of [T], whatever the object and the
    streams. *)
Theorem dispatch_ignores_value :
  forall (T : Type) `{Typed T} `{Formatted T},
    same_branch (hello (T := T)) "Hello, " "Goodbye, " /\
    same_branch (cleaner (T := T)) "Is Class, " "Not Class, " /\
    same_branch (another (T := T)) "Is Class, " "Is not Class, " /\
    forall arg,
      same_branch (asArgument (T := T) arg)
        "AsArg: Is Class, " "AsArg: Is Not Class, ".
Proof.
  intros T HT HF. repeat split.
  - exact (gated_same_branch Hello _ _ eq_refl).
  - exact (gated_same_branch Cleaner _ _ eq_refl).
  - exact (gated_same_branch Another _ _ eq_refl).
  - intros arg. exact (gated_same_branch (AsArgument arg) _ _ eq_refl).
Qed.

(** C8.  [main] builds, ignores [argc] and [argv], and every run returns
    0. *)
Theorem main_exits_zero :
  forall (argc : Z) (argv : list string),
  exists run,
    main argc argv = Built run /\
    main argc argv = main 0 [] /\
    forall cout, snd (run cout) = 0%Z.
Proof.
  intros argc argv. destruct (main_runs argc argv) as [run [E R]].
  exists run. split; [exact E|]. split; [reflexivity|].
  intros cout. now rewrite R.
Qed.

(** C10.  [amIAClass] and [amIAClass2] write the same line for every type
    and value; and for a class type [asArgument(v, nullptr)] writes the
    same line as [asArgument(v)]. *)
Theorem spellings_interchangeable :
  forall (T : Type) `{Typed T} `{Formatted T}
         (this : SimpleClass) (v : T) (os : ostream),
    amIAClass this v os = amIAClass2 this v os /\
    (is_class_v (static_type T) = true ->
     exists explicit defaulted,
       asArgument (Some nullptr) = Built explicit /\
       asArgument None = Built defaulted /\
       explicit this v os = defaulted this v os /\
       defaulted this v os = says "AsArg: Is Class, " v os).
Proof.
  intros T HT HF this v os. split.
  - now rewrite amIAClass_line, amIAClass2_line.
  - intros C.
    destruct (gated_call (T := T) (AsArgument None) _ _ eq_refl) as [g [Eg Rg]].
    exists g, g. simpl in Eg. rewrite asArgument_default.
    repeat split; try assumption.
    now rewrite Rg, C.
Qed.

(** The same at the call [main] makes: [sc.asArgument(string{"Joe"}, nullptr)]. *)
Lemma spellings_interchangeable_Joe :
  is_class_v (static_type std_string) = true /\
  exists explicit defaulted,
    asArgument (T := std_string) (Some nullptr) = Built explicit /\
    asArgument (T := std_string) None = Built defaulted /\
    explicit mkSimpleClass (mk_string "Joe") fresh
    = defaulted mkSimpleClass (mk_string "Joe") fresh /\
    defaulted mkSimpleClass (mk_string "Joe") fresh
    = says "AsArg: Is Class, " (mk_string "Joe") fresh.
Proof.
  split.
  - reflexivity.
  - exact (proj2 (spellings_interchangeable std_string mkSimpleClass
                    (mk_string "Joe") fresh) eq_refl).
Defined.

(** ** Further properties of the member functions and of [main] *)

Lemma newlines_app (a b : string) : newlines (a ++ b) = newlines a + newlines b.
Proof.
  induction a as [|c a IH]; simpl.
  - reflexivity.
  - rewrite IH. now rewrite Nat.add_assoc.
Qed.

(** The terminator a literal carries does not change what is printed. *)
Lemma c_str_terminated (s : string) : c_str (elems (lit s)) = c_str s.
Proof.
  unfold lit; simpl.
  induction s as [|c s IH]; simpl.
  - reflexivity.
  - destruct (Ascii.eqb c NUL); [reflexivity | now rewrite IH].
Qed.

Section Shapes.
Context {T : Type} `{Typed T} `{Formatted T}.

(** Every member function writes a fixed text, the value, a fixed text and
    a newline; the fixed texts hold no newline. *)
Lemma call_shape (m : member) :
  exists run (pre : string) (post : bool -> string),
    call m (T := T) = Built run /\
    newlines pre = 0 /\
    (forall alpha, newlines (post alpha) = 0) /\
    forall this v os,
      run this v os
      = write (pre ++ format (boolalpha_flag os) v
                   ++ post (boolalpha_flag os) ++ newline) os.
Proof.
  destruct (labels_of m) as [[a b]|] eqn:L.
  - destruct (gated_call m a b L) as [run [E R]].
    exists run, (if is_class_v (static_type T) then a else b), (fun _ => "").
    split; [exact E|]. split; [|split].
    + destruct m; try discriminate; injection L as <- <-;
        now destruct (is_class_v _).
    + reflexivity.
    + intros. now rewrite R.
  - destruct m; try discriminate; simpl.
    + exists amIAClass, "Is ",
        (fun alpha => " << a class: " ++ format alpha (is_class_v (static_type T))).
      split; [reflexivity|]. split; [reflexivity|]. split.
      * intros [|]; now destruct (is_class_v _).
      * intros. rewrite amIAClass_line. unfold verdict.
        now rewrite !append_assoc.
    + exists amIAClass2, "Is ",
        (fun alpha => " << a class: " ++ format alpha (is_class_v (static_type T))).
      split; [reflexivity|]. split; [reflexivity|]. split.
      * intros [|]; now destruct (is_class_v _).
      * intros. rewrite amIAClass2_line. unfold verdict.
        now rewrite !append_assoc.
    + exists (body nullExample_0), "Null Works, ", (fun _ => "").
      split; [reflexivity|]. split; [reflexivity|]. split; [reflexivity|].
      intros. cbn [body nullExample_0 nullExample2_0].
      now rewrite put_line by reflexivity.
    + exists (body nullExample2_0), "Null Works, ", (fun _ => "").
      split; [reflexivity|]. split; [reflexivity|]. split; [reflexivity|].
      intros. cbn [body nullExample_0 nullExample2_0].
      now rewrite put_line by reflexivity.
Qed.

End Shapes.


(** The four gated dispatchers side by side. *)
Lemma four_forms (T : Type) `{Typed T} `{Formatted T} :
  exists h c a g,
    hello = Built h /\ cleaner = Built c /\ another = Built a /\
    (forall arg, asArgument arg = Built g) /\
    forall (this : SimpleClass) (v : T) (os : ostream),
      h this v os
      = says (if is_class_v (static_type T) then "Hello, " else "Goodbye, ") v os /\
      c this v os
      = says (if is_class_v (static_type T) then "Is Class, " else "Not Class, ") v os /\
      a this v os
      = says (if is_class_v (static_type T) then "Is Class, " else "Is not Class, ") v os /\
      g this v os
      = says (if is_class_v (static_type T)
              then "AsArg: Is Class, " else "AsArg: Is Not Class, ") v os.
Proof.
  destruct (gated_call (T := T) Hello _ _ eq_refl) as [h [Eh Rh]].
  destruct (gated_call (T := T) Cleaner _ _ eq_refl) as [c [Ec Rc]].
  destruct (gated_call (T := T) Another _ _ eq_refl) as [a [Ea Ra]].
  destruct (gated_call (T := T) (AsArgument None) _ _ eq_refl) as [g [Eg Rg]].
  exists h, c, a, g. repeat (split; [assumption|]).
  split.
  - intros arg. rewrite asArgument_default. exact Eg.
  - intros this v os. now rewrite Rh, Rc, Ra, Rg.
Qed.

(** X1.  [nullExample] and [nullExample2] are not gated: for every type,
    class or not, both build and both write the line "Null Works, " and
    the value. *)
Theorem nullExample_ungated :
  forall (T : Type) `{Typed T} `{Formatted T}
         (this : SimpleClass) (v : T) (os : ostream),
  exists f g,
    nullExample = Built f /\ nullExample2 = Built g /\
    f this v os = says "Null Works, " v os /\
    g this v os = says "Null Works, " v os.
Proof.
  intros T HT HF this v os.
  exists (body nullExample_0), (body nullExample2_0).
  split; [reflexivity|]. split; [reflexivity|].
  split; simpl; now apply put_line.
Qed.

(** X2.  Whatever the stream holds when [main] starts, [main] adds the
    thirteen lines of [transcript] after it, in that order, leaves the
    stream in [boolalpha] mode and returns 0. *)
Theorem main_transcript :
  forall (argc : Z) (argv : list string),
  exists run,
    main argc argv = Built run /\
    List.length transcript = 13 /\
    forall cout,
      run cout
      = ({| boolalpha_flag := true;
            written := written cout ++ unlines transcript |}, 0%Z).
Proof.
  intros argc argv. destruct (main_runs argc argv) as [run [E R]].
  exists run. split; [exact E|]. split; [reflexivity|].
  intros cout. now rewrite R.
Qed.


(** X4.  For arguments whose inserters only append their rendering and
    change nothing of the stream (a [std::string], a string literal), on a
    stream at its default field width, calls do not interfere: the line a
    call writes is the same whether it runs first or after another call,
    so two calls in either order write the same two lines, in the order of
    the calls. *)
Theorem calls_independent :
  forall (T1 : Type) `{Typed T1} `{Formatted T1}
         (T2 : Type) `{Typed T2} `{Formatted T2}
         (m1 m2 : member) (this : SimpleClass) (v1 : T1) (v2 : T2) (os : ostream),
  exists run1 run2 ln1 ln2,
    call m1 = Built run1 /\ call m2 = Built run2 /\
    run1 this v1 os = write ln1 os /\
    run2 this v2 os = write ln2 os /\
    run2 this v2 (run1 this v1 os) = write (ln1 ++ ln2) os /\
    run1 this v1 (run2 this v2 os) = write (ln2 ++ ln1) os.
Proof.
  intros T1 HT1 HF1 T2 HT2 HF2 m1 m2 this v1 v2 os.
  destruct (call_appends (T := T1) m1) as [run1 [text1 [E1 R1]]].
  destruct (call_appends (T := T2) m2) as [run2 [text2 [E2 R2]]].
  exists run1, run2, (text1 (boolalpha_flag os) v1), (text2 (boolalpha_flag os) v2).
  repeat (split; [first [assumption | apply R1 | apply R2]|]).
  split.
  - now rewrite (R1 this v1 os), R2, write_flag, write_write.
  - now rewrite (R2 this v2 os), R1, write_flag, write_write.
Qed.

(** X5.  When the value is rendered without a newline, a call of any
    member function adds exactly one line: a text without newline, then
    one newline. *)
Theorem call_adds_one_line :
  forall (T : Type) `{Typed T} `{Formatted T}
         (m : member) (this : SimpleClass) (v : T) (os : ostream),
    newlines (format (boolalpha_flag os) v) = 0 ->
    exists run text,
      call m = Built run /\
      run this v os = write (text ++ newline) os /\
      newlines text = 0 /\
      newlines (text ++ newline) = 1.
Proof.
  intros T HT HF m this v os Hv.
  destruct (call_shape (T := T) m) as [run [pre [post [E [Hpre [Hpost R]]]]]].
  exists run, (pre ++ format (boolalpha_flag os) v ++ post (boolalpha_flag os)).
  split; [exact E|]. split.
  - rewrite R. now rewrite !append_assoc.
  - rewrite !newlines_app, Hpre, Hv, Hpost. split; reflexivity.
Qed.

(** X5 at [sc.hello(string{"Joe"})] on a fresh stream. *)
Lemma call_adds_one_line_Joe :
  newlines (format (boolalpha_flag fresh) (mk_string "Joe")) = 0 /\
  exists run text,
    call Hello = Built run /\
    run mkSimpleClass (mk_string "Joe") fresh = write (text ++ newline) fresh /\
    newlines text = 0 /\
    newlines (text ++ newline) = 1.
Proof.
  split.
  - reflexivity.
  - apply (call_adds_one_line std_string Hello mkSimpleClass (mk_string "Joe") fresh).
    reflexivity.
Defined.

(** X6.  A [std::string] of any content, the empty one included, takes
    the class branch of all four gated dispatchers. *)
Theorem std_string_is_class :
  forall (s : string) (this : SimpleClass) (os : ostream),
  exists h c a g,
    hello (T := std_string) = Built h /\
    cleaner (T := std_string) = Built c /\
    another (T := std_string) = Built a /\
    (forall arg, asArgument (T := std_string) arg = Built g) /\
    h this (mk_string s) os = write ("Hello, " ++ s ++ newline) os /\
    c this (mk_string s) os = write ("Is Class, " ++ s ++ newline) os /\
    a this (mk_string s) os = write ("Is Class, " ++ s ++ newline) os /\
    g this (mk_string s) os = write ("AsArg: Is Class, " ++ s ++ newline) os.
Proof.
  intros s this os.
  destruct (four_forms std_string) as [h [c [a [g [Eh [Ec [Ea [Eg R]]]]]]]].
  exists h, c, a, g. repeat (split; [assumption|]).
  destruct (R this (mk_string s) os) as [Rh [Rc [Ra Rg]]].
  rewrite Rh, Rc, Ra, Rg. repeat split.
Qed.

(** X7.  A string literal of any length is a [char] array, not a class:
    all four gated dispatchers take the other branch for it and print its
    characters up to the first NUL (all of them when it holds none). *)
Theorem literal_is_not_class :
  forall (s : string) (this : SimpleClass) (os : ostream),
  exists h c a g,
    hello (T := char_array (S (String.length s))) = Built h /\
    cleaner (T := char_array (S (String.length s))) = Built c /\
    another (T := char_array (S (String.length s))) = Built a /\
    (forall arg, asArgument (T := char_array (S (String.length s))) arg = Built g) /\
    h this (lit s) os = write ("Goodbye, " ++ c_str s ++ newline) os /\
    c this (lit s) os = write ("Not Class, " ++ c_str s ++ newline) os /\
    a this (lit s) os = write ("Is not Class, " ++ c_str s ++ newline) os /\
    g this (lit s) os = write ("AsArg: Is Not Class, " ++ c_str s ++ newline) os.
Proof.
  intros s this os.
  destruct (four_forms (char_array (S (String.length s))))
    as [h [c [a [g [Eh [Ec [Ea [Eg R]]]]]]]].
  exists h, c, a, g. repeat (split; [assumption|]).
  destruct (R this (lit s) os) as [Rh [Rc [Ra Rg]]].
  rewrite Rh, Rc, Ra, Rg. unfold says, line.
  unfold format, char_array_formatted. rewrite c_str_terminated.
  repeat split.
Qed.

Ltac lines_differ E :=
  apply write_inj in E; unfold line in E; simpl in E; congruence.

(** X8.  The forms can always be told apart in the output: for every type
    and value the lines of [hello], [cleaner] and [asArgument] differ from
    one another, and so do those of [hello], [another] and [asArgument];
    [cleaner] and [another] write the same line exactly for class types. *)
Theorem forms_told_apart :
  forall (T : Type) `{Typed T} `{Formatted T}
         (this : SimpleClass) (v : T) (os : ostream),
  exists h c a g,
    hello = Built h /\ cleaner = Built c /\ another = Built a /\
    (forall arg, asArgument arg = Built g) /\
    h this v os <> c this v os /\
    h this v os <> a this v os /\
    h this v os <> g this v os /\
    c this v os <> g this v os /\
    a this v os <> g this v os /\
    (c this v os = a this v os <-> is_class_v (static_type T) = true).
Proof.
  intros T HT HF this v os.
  destruct (four_forms T) as [h [c [a [g [Eh [Ec [Ea [Eg R]]]]]]]].
  exists h, c, a, g. repeat (split; [assumption|]).
  destruct (R this v os) as [Rh [Rc [Ra Rg]]].
  rewrite Rh, Rc, Ra, Rg. unfold says.
  destruct (is_class_v _).
  - repeat split; try (intros E; lines_differ E); reflexivity.
  - repeat split; try (intros E; lines_differ E). discriminate.
Qed.

(** X9.  [amIAClass] and [hello] agree on the type: under either setting
    of the stream's flag, [amIAClass] reports the type as a class (the
    rendering of [true]) exactly when [hello] writes "Hello, ", and as not
    a class (the rendering of [false]) exactly when [hello] writes
    "Goodbye, ". *)
Theorem verdict_matches_dispatch :
  forall (T : Type) `{Typed T} `{Formatted T}
         (this : SimpleClass) (v : T) (os : ostream),
  exists h,
    hello = Built h /\
    (h this v os = says "Hello, " v os <->
     amIAClass this v os
     = write ("Is " ++ format (boolalpha_flag os) v ++ " << a class: "
                ++ format (boolalpha_flag os) true ++ newline) os) /\
    (h this v os = says "Goodbye, " v os <->
     amIAClass this v os
     = write ("Is " ++ format (boolalpha_flag os) v ++ " << a class: "
                ++ format (boolalpha_flag os) false ++ newline) os).
Proof.
  intros T HT HF this v os.
  destruct (gated_call (T := T) Hello _ _ eq_refl) as [h [Eh Rh]].
  exists h. split; [exact Eh|].
  rewrite Rh, amIAClass_line. unfold verdict.
  assert (V : forall b1 b2 : bool,
             write ("Is " ++ format (boolalpha_flag os) v ++ " << a class: "
                      ++ format (boolalpha_flag os) b1 ++ newline) os
             = write ("Is " ++ format (boolalpha_flag os) v ++ " << a class: "
                      ++ format (boolalpha_flag os) b2 ++ newline) os ->
             b1 = b2).
  { intros b1 b2 E. apply write_inj in E. simpl in E.
    injection E as E. apply append_inv_head in E.
    destruct (boolalpha_flag os), b1, b2; simpl in E; congruence. }
  pose proof (says_apart _ _ v os hello_apart) as Hne.
  destruct (is_class_v _); split; split; intros E; try reflexivity;
    first [ now elim Hne
          | symmetry in E; now elim Hne
          | apply V in E; discriminate ].
Qed.
